(** * octave-chartjs: the [__webserve__] lifecycle controller

    A shallow embedding of [src/webserve.cc]: the four process-wide globals
    ([app], [is_routed], [crow_server], [served_html]), the helper
    [run_crow], the teardown [stop_crow] and the DLD entry point
    [__webserve__], followed by the properties of its start / update / stop
    discipline.

    The C++ code throws (Octave's [error], [std::system_error]) and mutates
    globals, so it is embedded in a small state-and-exception monad that
    also records the calls made to the outside world as a trace of events.
    Whether the system starts the thread that line 149 asks for is decided
    outside the program: the body of the entry point takes that outcome as
    a parameter, [__webserve__] is the call that gets its thread, and a
    call that is refused one is a separate action of the process. *)

From Stdlib Require Import String List ZArith QArith Bool Lia.
Import ListNotations.
Open Scope string_scope.
Open Scope Z_scope.
Open Scope list_scope.

(** ** Octave values, as far as [__webserve__] inspects them *)

Module Octave.

(** The dynamic type [octave_value].  Only the classes that the argument
    checks can tell apart are kept.  A real double scalar carries its
    (finite) value as a rational: every finite double is one. *)
Inductive octave_value : Type :=
| ov_undefined                       (* octave_value ()                *)
| ov_str (s : string)                (* char array, 'abc' or "abc"     *)
| ov_scalar (d : Q)                  (* real double scalar             *)
| ov_int32 (n : Z)                   (* int32 scalar                   *)
| ov_matrix (elts : list Q)          (* real double array, not 1x1     *)
| ov_bool (b : bool)                 (* logical scalar                 *)
| ov_cell (n : nat).                 (* cell array of n elements       *)

Definition octave_value_list := list octave_value.

(** [args(i)]: indexing past the end yields an undefined value. *)
Definition arg (args : octave_value_list) (i : nat) : octave_value :=
  nth i args ov_undefined.

Definition isnumeric (v : octave_value) : bool :=
  match v with
  | ov_scalar _ | ov_int32 _ | ov_matrix _ => true
  | _ => false
  end.

Definition is_scalar_type (v : octave_value) : bool :=
  match v with
  | ov_scalar _ | ov_int32 _ | ov_bool _ => true
  | _ => false
  end.

(** [is_string] and its newer spelling [isstring] are the same test. *)
Definition is_string (v : octave_value) : bool :=
  match v with
  | ov_str _ => true
  | _ => false
  end.

Definition isstring := is_string.

(** [string_value]: [None] stands for Octave's conversion error. *)
Definition string_value (v : octave_value) : option string :=
  match v with
  | ov_str s => Some s
  | _ => None
  end.

Definition INT_MIN : Z := - 2 ^ 31.
Definition INT_MAX : Z := 2 ^ 31 - 1.

(** [octave::math::fix]: round toward zero. *)
Definition math_fix (d : Q) : Z := Z.quot (Qnum d) (Zpos (Qden d)).

Definition Qlt_bool (x y : Q) : bool := negb (Qle_bool y x).

(** The conversion of a double to C [int] that [int_value ()] performs
    when called without [require_int]: saturate, otherwise truncate. *)
Definition int_of_double (d : Q) : Z :=
  if Qlt_bool d (inject_Z INT_MIN) then INT_MIN
  else if Qle_bool (inject_Z (INT_MAX + 1)) d then INT_MAX
  else math_fix d.

Definition double_value (v : octave_value) : option Q :=
  match v with
  | ov_scalar d => Some d
  | ov_int32 n => Some (inject_Z n)
  | ov_bool b => Some (if b then 1%Q else 0%Q)
  | _ => None
  end.

(** [int_value ()]: [None] stands for Octave's conversion error. *)
Definition int_value (v : octave_value) : option Z :=
  option_map int_of_double (double_value v).

End Octave.
Import Octave.

(** ** The embedded HTTP library object and the thread objects *)

Inductive LogLevel : Type := Debug | Info | Warning | Error | Critical.

(** The only handler this program ever registers: the lambda
    [[] () { return served_html.c_str (); }], which reads the global when a
    request arrives. *)
Inductive handler : Type := return_served_html.

(** [crow::SimpleApp], reduced to what the program sets on it. *)
Record Crow : Type := mkCrow {
  routes    : list (string * handler);
  bindaddr_ : string;
  port_     : Z;
  loglevel_ : LogLevel;
  listening : bool
}.

(** [crow::SimpleApp ()]. *)
Definition SimpleApp : Crow :=
  {| routes := []; bindaddr_ := "0.0.0.0"; port_ := 80;
     loglevel_ := Info; listening := false |}.

(** A thread of execution started for [run_crow (addr, port)]. *)
Record execution : Type := mkExecution {
  ex_addr   : string;
  ex_port   : Z;
  ex_exited : bool
}.

(** A [std::thread] object: joinable exactly when it still owns a thread
    of execution (given by its index in the table of executions). *)
Record thread : Type := mkThread { th_exec : option nat }.

Definition joinable (t : thread) : bool :=
  match th_exec t with Some _ => true | None => false end.

(** ** The process state *)

(** The four globals of the file, the table of threads of execution, and
    the lock flag the interpreter keeps for this function.  [crow_server]
    is a pointer to a heap object that nothing else refers to: [None] is
    [nullptr], [Some t] the object it points to. *)
Record world : Type := mkWorld {
  app         : Crow;
  is_routed   : bool;
  crow_server : option thread;
  served_html : string;
  execs       : list execution;
  fcn_locked  : bool
}.

Definition with_app (a : Crow) (w : world) : world :=
  mkWorld a (is_routed w) (crow_server w) (served_html w) (execs w) (fcn_locked w).
Definition with_is_routed (b : bool) (w : world) : world :=
  mkWorld (app w) b (crow_server w) (served_html w) (execs w) (fcn_locked w).
Definition with_crow_server (p : option thread) (w : world) : world :=
  mkWorld (app w) (is_routed w) p (served_html w) (execs w) (fcn_locked w).
Definition with_served_html (s : string) (w : world) : world :=
  mkWorld (app w) (is_routed w) (crow_server w) s (execs w) (fcn_locked w).
Definition with_execs (l : list execution) (w : world) : world :=
  mkWorld (app w) (is_routed w) (crow_server w) (served_html w) l (fcn_locked w).
Definition with_fcn_locked (b : bool) (w : world) : world :=
  mkWorld (app w) (is_routed w) (crow_server w) (served_html w) (execs w) b.

(** The state when the module has just been loaded (lines 31-34). *)
Definition process_start : world :=
  {| app := SimpleApp; is_routed := false; crow_server := None;
     served_html := ""; execs := []; fcn_locked := false |}.

(** ** State, exceptions and a trace of outside calls *)

Inductive exn : Type :=
| system_error
| execution_exception (msg : string).

Inductive event : Type :=
| ev_app_stop
| ev_join_returned
| ev_join_threw
| ev_app_destroyed
| ev_app_constructed
| ev_route (path : string)
| ev_thread_started (addr : string) (port : Z)
| ev_detached
| ev_mlock
| ev_munlock.

Inductive res (A : Type) : Type :=
| Val (a : A)
| Throw (e : exn).
Arguments Val {A} a.
Arguments Throw {A} e.

Definition M (A : Type) : Type := world -> res A * world * list event.

Definition ret {A} (a : A) : M A := fun w => (Val a, w, []).

Definition throw {A} (e : exn) : M A := fun w => (Throw e, w, []).

Definition bind {A B} (m : M A) (f : A -> M B) : M B :=
  fun w =>
    match m w with
    | (Val a, w1, t1) =>
        match f a w1 with
        | (r, w2, t2) => (r, w2, t1 ++ t2)
        end
    | (Throw e, w1, t1) => (Throw e, w1, t1)
    end.

(** [try { m } catch (...) { h e }]. *)
Definition try_catch {A} (m : M A) (h : exn -> M A) : M A :=
  fun w =>
    match m w with
    | (Val a, w1, t1) => (Val a, w1, t1)
    | (Throw e, w1, t1) =>
        match h e w1 with
        | (r, w2, t2) => (r, w2, t1 ++ t2)
        end
    end.

Definition get {A} (f : world -> A) : M A := fun w => (Val (f w), w, []).
Definition modify (f : world -> world) : M unit := fun w => (Val tt, f w, []).
Definition emit (e : event) : M unit := fun w => (Val tt, w, [e]).

(** A conversion that Octave refuses surfaces as its error exception. *)
Definition convert {A} (what : string) (o : option A) : M A :=
  match o with
  | Some a => ret a
  | None => throw (execution_exception what)
  end.

Declare Scope monad_scope.
Delimit Scope monad_scope with monad.
Notation "x <- m ;; k" := (bind m (fun x => k))
  (at level 61, m at next level, right associativity) : monad_scope.
Notation "m ;; k" := (bind m (fun _ => k))
  (at level 61, right associativity) : monad_scope.
Open Scope monad_scope.

Definition outcome {A} (x : res A * world * list event) : res A := fst (fst x).
Definition final {A} (x : res A * world * list event) : world := snd (fst x).
Definition trace {A} (x : res A * world * list event) : list event := snd x.

(** ** The embedded library, the threads and the interpreter hooks *)

(** [app.bindaddr (addr).loglevel (Warning).port (port).run ()], lines
    37-46: [run ()] blocks in the accept loop until the app is stopped. *)
Definition run_crow (addr : string) (port : Z) (a : Crow) : Crow :=
  {| routes := routes a; bindaddr_ := addr; port_ := port;
     loglevel_ := Warning; listening := true |}.

(** [app.stop ()]: asks the accept loop to return. *)
Definition Crow_stop (a : Crow) : Crow :=
  {| routes := routes a; bindaddr_ := bindaddr_ a; port_ := port_ a;
     loglevel_ := loglevel_ a; listening := false |}.

Definition app_stop : M unit :=
  modify (fun w => with_app (Crow_stop (app w)) w) ;; emit ev_app_stop.

(** [app.~Crow ()] leaves dead storage behind, [new (&app) crow::SimpleApp ()]
    builds a new object in it. *)
Definition app_destroy : M unit := emit ev_app_destroyed.

Definition app_construct : M unit :=
  modify (with_app SimpleApp) ;; emit ev_app_constructed.

(** [CROW_ROUTE (app, path) (h)]. *)
Definition CROW_ROUTE (path : string) (h : handler) : M unit :=
  modify (fun w =>
    with_app {| routes := routes (app w) ++ [(path, h)];
                bindaddr_ := bindaddr_ (app w); port_ := port_ (app w);
                loglevel_ := loglevel_ (app w);
                listening := listening (app w) |} w) ;;
  emit (ev_route path).

Fixpoint mark_exited (i : nat) (l : list execution) : list execution :=
  match l, i with
  | [], _ => []
  | e :: l', O => mkExecution (ex_addr e) (ex_port e) true :: l'
  | e :: l', S i' => e :: mark_exited i' l'
  end.

(** [new thread (run_crow, addr, port)] when the system starts the thread:
    a new thread of execution, owned by the joinable object that is
    returned. *)
Definition new_thread (addr : string) (port : Z) : M thread :=
  fun w =>
    (Val (mkThread (Some (length (execs w)))),
     with_execs (execs w ++ [mkExecution addr port false]) w,
     [ev_thread_started addr port]).

(** [new thread (run_crow, addr, port)] when the system cannot start
    another thread: the constructor throws [std::system_error], no thread
    of execution exists and no object is returned. *)
Definition new_thread_refused (addr : string) (port : Z) : M thread :=
  throw system_error.

(** [crow_server->detach ()], for the object [t] that [crow_server] points
    to: the thread of execution is let go; [std::system_error] when the
    object is not joinable. *)
Definition detach (t : thread) : M unit :=
  if joinable t
  then modify (with_crow_server (Some (mkThread None))) ;; emit ev_detached
  else throw system_error.

(** [crow_server->join ()], for the object [t] that [crow_server] points
    to: returns once the owned thread of execution has exited;
    [std::system_error] (invalid_argument) when the object is not
    joinable. *)
Definition join (t : thread) : M unit :=
  match th_exec t with
  | Some i =>
      modify (fun w => with_crow_server (Some (mkThread None))
                         (with_execs (mark_exited i (execs w)) w)) ;;
      emit ev_join_returned
  | None => emit ev_join_threw ;; throw system_error
  end.

(** [interp.mlock ()] and [interp.munlock ()] set and clear the lock flag
    of the calling function. *)
Definition mlock : M unit := modify (with_fcn_locked true) ;; emit ev_mlock.
Definition munlock : M unit := modify (with_fcn_locked false) ;; emit ev_munlock.

(** Octave's [error (msg)]. *)
Definition error {A} (msg : string) : M A := throw (execution_exception msg).

(** ** The program *)

(** Lines 49-76. *)
Definition stop_crow : M unit :=
  app_stop ;;
  try_catch
    (p <- get crow_server ;;
     match p with
     | Some t => join t
     | None => ret tt
     end)
    (fun e =>
       match e with
       | system_error => ret tt
       | _ => throw e
       end) ;;
  modify (with_crow_server None) ;;
  app_destroy ;;
  app_construct ;;
  modify (with_is_routed false).

(** Lines 78-157.  The early [return] of the stop branch is the first
    alternative of the outer conditional.  Whether the system starts the
    thread asked for at line 149 is not up to the program: the body takes
    the outcome of [new thread] as [new_thread_]. *)
Definition webserve_with (new_thread_ : string -> Z -> M thread)
           (args : octave_value_list) : M octave_value_list :=
  let addr := "0.0.0.0" in
  let html := "This is an Octave WebServer instance!" in
  let port := 8080 in
  let nargin := length args in
  stop <- (if (0 <? nargin)%nat
           then if isnumeric (arg args 0) && is_scalar_type (arg args 0)
                then n <- convert "int_value" (int_value (arg args 0)) ;;
                     ret (n =? 0)
                else ret false
           else ret false) ;;
  if stop : bool then
    stop_crow ;;
    munlock ;;
    ret []
  else
    html <- (if (0 <? nargin)%nat
             then if is_string (arg args 0)
                  then convert "string_value" (string_value (arg args 0))
                  else error "htmlserve: HTML must be a string."
             else ret html) ;;
    port <- (if (1 <? nargin)%nat
             then if isnumeric (arg args 1) && is_scalar_type (arg args 1)
                  then convert "int_value" (int_value (arg args 1))
                  else error "htmlserve: PORT must be a scalar integer value."
             else ret port) ;;
    addr <- (if (2 <? nargin)%nat
             then if isstring (arg args 2)
                  then convert "string_value" (string_value (arg args 2))
                  else error "htmlserve: ADDR must be a character vector."
             else ret addr) ;;
    routed <- get is_routed ;;
    (if negb routed
     then CROW_ROUTE "/" return_served_html ;;
          modify (with_is_routed true)
     else ret tt) ;;
    modify (with_served_html html) ;;
    p <- get crow_server ;;
    match p with
    | None =>
        t <- new_thread_ addr port ;;
        modify (with_crow_server (Some t)) ;;
        detach t
    | Some _ => ret tt
    end ;;
    mlock ;;
    ret [].

(** The entry point in a call whose thread, if it asks for one, is
    started. *)
Definition __webserve__ : octave_value_list -> M octave_value_list :=
  webserve_with new_thread.

(** ** What a client sees, and what the other threads do *)

(** [s.c_str ()] read as a C string, which is what a [const char*] return
    value is: the characters before the first NUL byte. *)
Fixpoint c_str (s : string) : string :=
  match s with
  | EmptyString => EmptyString
  | String c s' =>
      if Ascii.eqb c Ascii.zero then EmptyString else String c (c_str s')
  end.

(** Whether a string is free of NUL bytes. *)
Fixpoint nul_free (s : string) : bool :=
  match s with
  | EmptyString => true
  | String c s' => negb (Ascii.eqb c Ascii.zero) && nul_free s'
  end.

(** The answer of the router of the server object to [GET path], for a
    request that reaches it: the handler of the first matching route, run
    against the globals of [w].  The lambda of line 140 returns
    [served_html.c_str ()]. *)
Definition run_handler (h : handler) (w : world) : string :=
  match h with return_served_html => c_str (served_html w) end.

Definition http_get (w : world) (path : string) : option string :=
  match find (fun r => String.eqb (fst r) path) (routes (app w)) with
  | Some r => Some (run_handler (snd r) w)
  | None => None
  end.

(** One thing that happens in the process: a call from the interpreter
    whose thread, if it asks for one, is started; a detached listener
    thread making progress on its own; or a call from the interpreter
    that asks for a thread and is refused it. *)
Inductive action : Type :=
| Call (args : octave_value_list)
| ListenerRuns (i : nat)      (* execution i enters the body of run_crow *)
| ListenerExits (i : nat)     (* execution i returns from run_crow       *)
| CallRefused (args : octave_value_list).

Definition step (a : action) (w : world) : world * list event :=
  match a with
  | Call args => (final (__webserve__ args w), trace (__webserve__ args w))
  | ListenerRuns i =>
      match nth_error (execs w) i with
      | Some e =>
          if ex_exited e then (w, [])
          else (with_app (run_crow (ex_addr e) (ex_port e) (app w)) w, [])
      | None => (w, [])
      end
  | ListenerExits i => (with_execs (mark_exited i (execs w)) w, [])
  | CallRefused args =>
      (* only a call that reaches line 149 can be refused a thread *)
      match outcome (webserve_with new_thread_refused args w) with
      | Throw system_error =>
          (final (webserve_with new_thread_refused args w),
           trace (webserve_with new_thread_refused args w))
      | _ => (w, [])
      end
  end.

Fixpoint run (acts : list action) (w : world) : world * list event :=
  match acts with
  | [] => (w, [])
  | a :: acts' =>
      let '(w1, t1) := step a w in
      let '(w2, t2) := run acts' w1 in
      (w2, t1 ++ t2)
  end.

Definition reached (acts : list action) : world := fst (run acts process_start).

(** ** Reading the argument checks on their own *)

(** What lines 93-133 make of an argument list, without running anything:
    the stop sentinel, a start request with its three settings, or the
    message of the first check that fails. *)
Inductive request : Type :=
| req_stop
| req_start (html : string) (port : Z) (addr : string)
| req_invalid (msg : string).

Definition stop_requested (args : octave_value_list) : bool :=
  (0 <? length args)%nat
  && (isnumeric (arg args 0) && is_scalar_type (arg args 0))
  && match int_value (arg args 0) with
     | Some n => n =? 0
     | None => false
     end.

Definition classify (args : octave_value_list) : request :=
  if stop_requested args then req_stop
  else
    match (if (0 <? length args)%nat
           then string_value (arg args 0)
           else Some "This is an Octave WebServer instance!") with
    | None => req_invalid "htmlserve: HTML must be a string."
    | Some html =>
        match (if (1 <? length args)%nat
               then if isnumeric (arg args 1) && is_scalar_type (arg args 1)
                    then int_value (arg args 1) else None
               else Some 8080) with
        | None => req_invalid "htmlserve: PORT must be a scalar integer value."
        | Some port =>
            match (if (2 <? length args)%nat
                   then string_value (arg args 2)
                   else Some "0.0.0.0") with
            | None => req_invalid "htmlserve: ADDR must be a character vector."
            | Some addr => req_start html port addr
            end
        end
    end.

(** The stop branch, lines 99-101. *)
Definition stop_branch : M octave_value_list :=
  stop_crow ;; munlock ;; ret [].

(** The part after the argument checks, lines 136-156. *)
Definition start_branch_with (new_thread_ : string -> Z -> M thread)
           (html : string) (port : Z) (addr : string)
  : M octave_value_list :=
  routed <- get is_routed ;;
  (if negb routed
   then CROW_ROUTE "/" return_served_html ;;
        modify (with_is_routed true)
   else ret tt) ;;
  modify (with_served_html html) ;;
  p <- get crow_server ;;
  match p with
  | None =>
      t <- new_thread_ addr port ;;
      modify (with_crow_server (Some t)) ;;
      detach t
  | Some _ => ret tt
  end ;;
  mlock ;;
  ret [].

Definition start_branch : string -> Z -> string -> M octave_value_list :=
  start_branch_with new_thread.

(** The resting state of the controller: no listener, server object new. *)
Definition Idle (w : world) : Prop :=
  crow_server w = None /\ is_routed w = false /\ app w = SimpleApp.

(** What holds of the globals between any two calls. *)
Definition consistent (w : world) : Prop :=
  routes (app w) = (if is_routed w then [("/", return_served_html)] else [])
  /\ (crow_server w = None
      \/ (crow_server w = Some (mkThread None)
          /\ is_routed w = true /\ fcn_locked w = true)).

Definition is_root (r : string * handler) : bool := String.eqb (fst r) "/".

Definition root_bound (a : Crow) : bool := existsb is_root (routes a).

Definition root_bindings (a : Crow) : nat := length (filter is_root (routes a)).

Definition is_mlock (e : event) : bool :=
  match e with ev_mlock => true | _ => false end.
Definition is_munlock (e : event) : bool :=
  match e with ev_munlock => true | _ => false end.
Definition is_route (e : event) : bool :=
  match e with ev_route _ => true | _ => false end.
Definition is_join_returned (e : event) : bool :=
  match e with ev_join_returned => true | _ => false end.

Definition count (p : event -> bool) (t : list event) : nat :=
  length (filter p t).

(** What the outside can tell about a state: the flag, the handle, the
    server object, the lock, and the answer to a request for the root. *)
Definition observe (w : world)
  : bool * option thread * Crow * bool * option string :=
  (is_routed w, crow_server w, app w, fcn_locked w, http_get w "/").

(** A series of calls, with what each one returned, did and left visible. *)
Fixpoint serve_all (calls : list octave_value_list) (w : world)
  : list (res octave_value_list * list event
          * (bool * option thread * Crow * bool * option string)) :=
  match calls with
  | [] => []
  | c :: calls' =>
      let r := __webserve__ c w in
      (outcome r, trace r, observe (final r)) :: serve_all calls' (final r)
  end.

Definition is_start_call (a : action) : bool :=
  match a with
  | Call args =>
      match classify args with req_start _ _ _ => true | _ => false end
  | _ => false
  end.

Definition is_stop_call (a : action) : bool :=
  match a with
  | Call args => stop_requested args
  | _ => false
  end.

(** The state that [stop_crow] and [munlock] leave behind when no thread
    was waited for. *)
Definition stopped (w : world) : world :=
  mkWorld SimpleApp false None (served_html w) (execs w) false.

(** The state that a start from [Idle] leaves behind. *)
Definition started (html : string) (port : Z) (addr : string) (w : world)
  : world :=
  mkWorld {| routes := routes (app w) ++ [("/", return_served_html)];
             bindaddr_ := bindaddr_ (app w); port_ := port_ (app w);
             loglevel_ := loglevel_ (app w); listening := listening (app w) |}
          true (Some (mkThread None)) html
          (execs w ++ [mkExecution addr port false]) true.

(** Two states are alike when they agree on everything except the table
    of (detached) threads of execution, and except a document that no
    route can serve. *)
Definition alike (w1 w2 : world) : Prop :=
  app w1 = app w2
  /\ is_routed w1 = is_routed w2
  /\ crow_server w1 = crow_server w2
  /\ fcn_locked w1 = fcn_locked w2
  /\ (served_html w1 = served_html w2 \/ routes (app w1) = []).

(** The shapes of the globals between calls: no listener held (handle
    null, function unlocked, the root route bound or not as the flag
    says), or a listener held (handle pointing to a detached thread
    object, flag true, function locked, the root route and nothing
    else). *)
Definition settled (w : world) : Prop :=
  (crow_server w = None /\ fcn_locked w = false
   /\ routes (app w)
      = (if is_routed w then [("/", return_served_html)] else []))
  \/ (crow_server w = Some (mkThread None) /\ is_routed w = true
      /\ fcn_locked w = true
      /\ routes (app w) = [("/", return_served_html)]).

(** The state in which a start that was refused its thread leaves the
    globals: the route, the flag and the document are set (lines
    136-144), the handle is still null and the function was not locked. *)
Definition half_started (html : string) (w : world) : world :=
  mkWorld (if is_routed w then app w
           else {| routes := routes (app w) ++ [("/", return_served_html)];
                   bindaddr_ := bindaddr_ (app w); port_ := port_ (app w);
                   loglevel_ := loglevel_ (app w);
                   listening := listening (app w) |})
          true None html (execs w) (fcn_locked w).

(** The registration that a start performs when it finds the flag false. *)
Definition route_events (w : world) : list event :=
  if is_routed w then [] else [ev_route "/"].

(** The three messages of lines 109, 120 and 131. *)
Definition validation_messages : list string :=
  ["htmlserve: HTML must be a string.";
   "htmlserve: PORT must be a scalar integer value.";
   "htmlserve: ADDR must be a character vector."].

(** The threads of execution that a call adds to the table: one, for a
    start that passes the checks and finds the handle null. *)
Definition spawned (args : octave_value_list) (w : world) : list execution :=
  match classify args, crow_server w with
  | req_start _ port addr, None => [mkExecution addr port false]
  | _, _ => []
  end.

Definition is_thread_started (e : event) : bool :=
  match e with ev_thread_started _ _ => true | _ => false end.

(** How many listeners can still be started before the next stop. *)
Definition free_slots (w : world) : nat :=
  match crow_server w with None => 1 | Some _ => 0 end.

(** What [stop_crow] does about the thread behind the handle. *)
Definition join_events (w : world) : list event :=
  match crow_server w with
  | None => []
  | Some t => if joinable t then [ev_join_returned] else [ev_join_threw]
  end.

Definition joined_execs (w : world) : list execution :=
  match crow_server w with
  | Some {| th_exec := Some i |} => mark_exited i (execs w)
  | _ => execs w
  end.

(** * Properties *)

(** ** The entry point, case by case *)

Lemma webserve_classified (args : octave_value_list) (w : world) :
  __webserve__ args w =
  match classify args with
  | req_stop => stop_branch w
  | req_start html port addr => start_branch html port addr w
  | req_invalid msg => (Throw (execution_exception msg), w, [])
  end.
Proof.
  destruct w as [ap [|] [[[i|]]|] doc ex lk];
    destruct args as [|a [|b [|c rest]]].
  all: try reflexivity.
  all: destruct a; try reflexivity.
  all: try (destruct b; try reflexivity; destruct c; reflexivity).
  all: unfold classify, stop_requested, __webserve__, webserve_with, bind;
    simpl.
  all: match goal with |- context [?x =? 0] => destruct (x =? 0) end.
  all: reflexivity.
Qed.

(** The same for a call that is refused its thread. *)
Lemma webserve_refused_classified (args : octave_value_list) (w : world) :
  webserve_with new_thread_refused args w =
  match classify args with
  | req_stop => stop_branch w
  | req_start html port addr =>
      start_branch_with new_thread_refused html port addr w
  | req_invalid msg => (Throw (execution_exception msg), w, [])
  end.
Proof.
  destruct w as [ap [|] [[[i|]]|] doc ex lk];
    destruct args as [|a [|b [|c rest]]].
  all: try reflexivity.
  all: destruct a; try reflexivity.
  all: try (destruct b; try reflexivity; destruct c; reflexivity).
  all: unfold classify, stop_requested, webserve_with, bind; simpl.
  all: match goal with |- context [?x =? 0] => destruct (x =? 0) end.
  all: reflexivity.
Qed.

(** ** The two branches, computed *)

Ltac world_cases w :=
  destruct w as [? [|] [[[?|]]|] ? ? ?]; simpl in *;
  try discriminate; try congruence.

Lemma stop_branch_null (w : world) :
  crow_server w = None ->
  stop_branch w =
  (Val [], stopped w,
   [ev_app_stop; ev_app_destroyed; ev_app_constructed; ev_munlock]).
Proof. intros H. world_cases w; reflexivity. Qed.

Lemma stop_branch_detached (w : world) :
  crow_server w = Some (mkThread None) ->
  stop_branch w =
  (Val [], stopped w,
   [ev_app_stop; ev_join_threw; ev_app_destroyed; ev_app_constructed;
    ev_munlock]).
Proof. intros H. world_cases w; reflexivity. Qed.

Lemma stop_branch_joinable (w : world) (i : nat) :
  crow_server w = Some (mkThread (Some i)) ->
  stop_branch w =
  (Val [], with_execs (mark_exited i (execs w)) (stopped w),
   [ev_app_stop; ev_join_returned; ev_app_destroyed; ev_app_constructed;
    ev_munlock]).
Proof.
  intros H. world_cases w; inversion H; subst; reflexivity.
Qed.

Lemma stop_branch_resets (w : world) :
  outcome (stop_branch w) = Val []
  /\ Idle (final (stop_branch w))
  /\ fcn_locked (final (stop_branch w)) = false
  /\ served_html (final (stop_branch w)) = served_html w
  /\ count is_mlock (trace (stop_branch w)) = 0%nat
  /\ count is_munlock (trace (stop_branch w)) = 1%nat
  /\ count is_route (trace (stop_branch w)) = 0%nat.
Proof.
  unfold Idle. world_cases w; repeat split; reflexivity.
Qed.

Lemma start_branch_running (html : string) (port : Z) (addr : string)
      (w : world) :
  crow_server w <> None -> is_routed w = true ->
  start_branch html port addr w =
  (Val [], with_fcn_locked true (with_served_html html w), [ev_mlock]).
Proof. intros H1 H2. world_cases w; reflexivity. Qed.

Lemma start_branch_idle (html : string) (port : Z) (addr : string)
      (w : world) :
  crow_server w = None -> is_routed w = false ->
  start_branch html port addr w =
  (Val [], started html port addr w,
   [ev_route "/"; ev_thread_started addr port; ev_detached; ev_mlock]).
Proof. intros H1 H2. world_cases w; reflexivity. Qed.

Lemma start_branch_hooks (html : string) (port : Z) (addr : string)
      (w : world) :
  outcome (start_branch html port addr w) = Val []
  /\ count is_mlock (trace (start_branch html port addr w)) = 1%nat
  /\ count is_munlock (trace (start_branch html port addr w)) = 0%nat
  /\ served_html (final (start_branch html port addr w)) = html
  /\ fcn_locked (final (start_branch html port addr w)) = true.
Proof. world_cases w; repeat split; reflexivity. Qed.

Lemma start_branch_null (html : string) (port : Z) (addr : string)
      (w : world) :
  crow_server w = None ->
  start_branch html port addr w =
  (Val [],
   with_fcn_locked true
     (with_crow_server (Some (mkThread None))
        (with_execs (execs w ++ [mkExecution addr port false])
           (half_started html w))),
   route_events w ++ [ev_thread_started addr port; ev_detached; ev_mlock]).
Proof. intros H. world_cases w; reflexivity. Qed.

Lemma start_branch_refused_null (html : string) (port : Z) (addr : string)
      (w : world) :
  crow_server w = None ->
  start_branch_with new_thread_refused html port addr w =
  (Throw system_error, half_started html w, route_events w).
Proof. intros H. world_cases w; reflexivity. Qed.

Lemma start_branch_refused_running (html : string) (port : Z) (addr : string)
      (w : world) :
  crow_server w <> None ->
  start_branch_with new_thread_refused html port addr w =
  start_branch html port addr w.
Proof. intros H. world_cases w; reflexivity. Qed.

(** A refused call changes something only when it is a start that passes
    the checks and finds the handle null. *)
Lemma refused_call_cases (args : octave_value_list) (w : world) :
  step (CallRefused args) w = (w, [])
  \/ exists html port addr,
       classify args = req_start html port addr
       /\ crow_server w = None
       /\ step (CallRefused args) w = (half_started html w, route_events w).
Proof.
  simpl. rewrite webserve_refused_classified.
  destruct (classify args) as [|html port addr|msg].
  - destruct (stop_branch_resets w) as (Ho & _). rewrite Ho. left. reflexivity.
  - destruct (crow_server w) as [t|] eqn:Hc.
    + rewrite start_branch_refused_running by congruence.
      destruct (start_branch_hooks html port addr w) as (Ho & _).
      rewrite Ho. left. reflexivity.
    + rewrite start_branch_refused_null by assumption.
      right. exists html, port, addr. repeat split.
  - left. reflexivity.
Qed.

(** ** The invariant of the globals *)

Lemma consistent_process_start : consistent process_start.
Proof. split; [reflexivity | left; reflexivity]. Qed.

Lemma consistent_cases (w : world) :
  consistent w ->
  (crow_server w = None
   /\ routes (app w)
      = (if is_routed w then [("/", return_served_html)] else []))
  \/ (crow_server w = Some (mkThread None) /\ is_routed w = true
      /\ fcn_locked w = true
      /\ routes (app w) = [("/", return_served_html)]).
Proof.
  intros [Hr [Hn | (Hs & Ht & Hl)]].
  - left. auto.
  - right. rewrite Ht in Hr. auto.
Qed.

Lemma half_started_routes (html : string) (w : world) :
  routes (app w) = (if is_routed w then [("/", return_served_html)] else []) ->
  routes (app (half_started html w)) = [("/", return_served_html)].
Proof.
  intros H. unfold half_started. simpl.
  destruct (is_routed w); simpl; rewrite H; reflexivity.
Qed.

Lemma Idle_consistent (w : world) : Idle w -> consistent w.
Proof.
  intros (Hc & Hr & Ha). split.
  - rewrite Hr, Ha. reflexivity.
  - left. auto.
Qed.

Lemma consistent_call (args : octave_value_list) (w : world) :
  consistent w -> consistent (final (__webserve__ args w)).
Proof.
  intros Hw. rewrite webserve_classified.
  destruct (classify args) as [|html port addr|msg].
  - apply Idle_consistent, stop_branch_resets.
  - destruct (consistent_cases w Hw) as [(Hc & Ha) | (Hc & Hr & Hl & Ha)].
    + rewrite start_branch_null by assumption.
      split; [|right; auto].
      apply (half_started_routes html w Ha).
    + rewrite start_branch_running by congruence.
      split; simpl; [rewrite Hr; assumption | right; auto].
  - exact Hw.
Qed.

Lemma consistent_step (a : action) (w : world) :
  consistent w -> consistent (fst (step a w)).
Proof.
  intros Hw. destruct a as [args|i|i|args].
  - apply consistent_call, Hw.
  - simpl. destruct (nth_error (execs w) i) as [e|]; [|exact Hw].
    destruct (ex_exited e); exact Hw.
  - exact Hw.
  - destruct (refused_call_cases args w)
      as [E | (html & port & addr & _ & Hc & E)]; rewrite E; [exact Hw|].
    destruct Hw as [Hr _].
    split; [|left; reflexivity].
    apply (half_started_routes html w Hr).
Qed.

Lemma consistent_run (acts : list action) :
  forall w, consistent w -> consistent (fst (run acts w)).
Proof.
  induction acts as [|a acts IH]; intros w Hw; simpl.
  - exact Hw.
  - pose proof (consistent_step a w Hw) as H1.
    destruct (step a w) as [w1 t1]. simpl in H1.
    specialize (IH w1 H1).
    destruct (run acts w1) as [w2 t2]. exact IH.
Qed.

Lemma reached_consistent (acts : list action) : consistent (reached acts).
Proof. apply consistent_run, consistent_process_start. Qed.

Lemma route_event_only_when_unrouted (args : octave_value_list) (w : world) :
  In (ev_route "/") (trace (__webserve__ args w)) ->
  is_routed w = false
  /\ is_routed (final (__webserve__ args w)) = true
  /\ count is_route (trace (__webserve__ args w)) = 1%nat.
Proof.
  rewrite webserve_classified.
  destruct (classify args) as [|html port addr|msg].
  - intros H. exfalso. revert H.
    world_cases w; intros H; repeat (destruct H as [H|H]; try discriminate H);
      exact H.
  - world_cases w; intros H;
      repeat (destruct H as [H|H]; try discriminate H);
      try contradiction; repeat split; reflexivity.
  - simpl. contradiction.
Qed.

(** ** States that no caller and no client can tell apart *)

Lemma alike_observe (w1 w2 : world) : alike w1 w2 -> observe w1 = observe w2.
Proof.
  intros (Ha & Hr & Hc & Hl & Hd). unfold observe, http_get.
  rewrite <- Ha, <- Hr, <- Hc, <- Hl.
  destruct Hd as [Hd | Hd].
  - destruct (find _ (routes (app w1))) as [[p []]|]; simpl;
      [rewrite Hd|]; reflexivity.
  - rewrite Hd. reflexivity.
Qed.

Lemma alike_call (args : octave_value_list) (w1 w2 : world) :
  alike w1 w2 ->
  outcome (__webserve__ args w1) = outcome (__webserve__ args w2)
  /\ trace (__webserve__ args w1) = trace (__webserve__ args w2)
  /\ alike (final (__webserve__ args w1)) (final (__webserve__ args w2)).
Proof.
  intros (Ha & Hr & Hc & Hl & Hd). rewrite !webserve_classified.
  destruct (classify args) as [|html port addr|msg].
  - destruct w1 as [a1 r1 c1 d1 e1 l1], w2 as [a2 r2 c2 d2 e2 l2].
    simpl in *. subst a2 r2 c2 l2.
    destruct c1 as [[[i|]]|]; repeat split; auto.
  - destruct w1 as [a1 r1 c1 d1 e1 l1], w2 as [a2 r2 c2 d2 e2 l2].
    simpl in *. subst a2 r2 c2 l2.
    destruct r1, c1 as [[[i|]]|]; repeat split; auto.
  - repeat split; auto.
Qed.

Lemma alike_serve_all (calls : list octave_value_list) :
  forall w1 w2, alike w1 w2 -> serve_all calls w1 = serve_all calls w2.
Proof.
  induction calls as [|c calls IH]; intros w1 w2 H; simpl.
  - reflexivity.
  - destruct (alike_call c w1 w2 H) as (Ho & Ht & Hf).
    rewrite Ho, Ht, (alike_observe _ _ Hf), (IH _ _ Hf). reflexivity.
Qed.

Lemma stop_branch_alike_process_start (w : world) :
  alike (final (stop_branch w)) process_start.
Proof.
  destruct (stop_branch_resets w) as (_ & (Hc & Hr & Ha) & Hl & _).
  unfold alike. rewrite Hc, Hr, Ha, Hl. simpl. auto 6.
Qed.

(** ** C1: what Stop leaves behind *)

(** C1.  Whatever the state, once a stop call ([serve (0)]) has returned
    the route-registered flag is false, the listener handle is null and
    the server object is a newly constructed one without routes; the
    function is unlocked, and any series of later calls returns, does and
    shows exactly what it would from the state at process start. *)
Theorem stop_restores_process_start
        (w : world) (args : octave_value_list) :
  stop_requested args = true ->
  let w' := final (__webserve__ args w) in
  outcome (__webserve__ args w) = Val []
  /\ is_routed w' = false
  /\ crow_server w' = None
  /\ app w' = SimpleApp
  /\ routes (app w') = []
  /\ observe w' = observe process_start
  /\ forall calls, serve_all calls w' = serve_all calls process_start.
Proof.
  intros Hs w'. subst w'. rewrite webserve_classified.
  unfold classify. rewrite Hs.
  destruct (stop_branch_resets w) as (Ho & (Hc & Hr & Ha) & Hl & _).
  pose proof (stop_branch_alike_process_start w) as Hal.
  repeat split; auto.
  - rewrite Ha. reflexivity.
  - apply alike_observe, Hal.
  - intros calls. apply alike_serve_all, Hal.
Qed.

Lemma stop_restores_process_start_witness :
  let w := final (__webserve__ [ov_str "A"; ov_scalar 9000] process_start) in
  let w' := final (__webserve__ [ov_scalar 0] w) in
  is_routed w = true /\ crow_server w <> None
  /\ is_routed w' = false /\ crow_server w' = None /\ app w' = SimpleApp
  /\ forall calls, serve_all calls w' = serve_all calls process_start.
Proof.
  intros w w'.
  pose proof (stop_restores_process_start w [ov_scalar 0] eq_refl) as H.
  simpl in H. destruct H as (_ & H1 & H2 & H3 & _ & _ & H4).
  split; [reflexivity|].
  split; [discriminate|].
  repeat split; assumption.
Defined.

(** ** C2: a start while the listener runs only swaps the document *)

Lemma c_str_nul_free (s : string) : nul_free s = true -> c_str s = s.
Proof.
  induction s as [|c s IH]; simpl; intros H; [reflexivity|].
  apply andb_prop in H. destruct H as [Hc Hs].
  destruct (Ascii.eqb c Ascii.zero); [discriminate Hc|].
  rewrite (IH Hs). reflexivity.
Qed.

(** C2.  In any state the process can be in, a start call made while the
    listener handle is non-null returns normally and leaves the world as
    it was except for [served_html], which is the new document: no thread
    is started, no route is registered, the server object (and with it the
    bind address and port) is untouched.  The only outside call is the
    lock hook, on a function that is locked already.  From then on the
    root handler reads the new document: it returns its C string, which
    is the whole document when it holds no NUL byte. *)
Theorem start_while_running_swaps_document
        (acts : list action) (args : octave_value_list)
        (html : string) (port : Z) (addr : string) :
  crow_server (reached acts) <> None ->
  classify args = req_start html port addr ->
  let w := reached acts in
  __webserve__ args w = (Val [], with_served_html html w, [ev_mlock])
  /\ served_html (final (__webserve__ args w)) = html
  /\ http_get (final (__webserve__ args w)) "/" = Some (c_str html)
  /\ (nul_free html = true ->
      http_get (final (__webserve__ args w)) "/" = Some html)
  /\ app (final (__webserve__ args w)) = app w
  /\ execs (final (__webserve__ args w)) = execs w
  /\ crow_server (final (__webserve__ args w)) = crow_server w
  /\ count is_route (trace (__webserve__ args w)) = 0%nat.
Proof.
  intros Hrun Hcl w. subst w.
  destruct (consistent_cases _ (reached_consistent acts))
    as [(Hc & _) | (Hc & Hr & Hl & Ha)]; [contradiction|].
  assert (E : __webserve__ args (reached acts)
              = (Val [], with_served_html html (reached acts), [ev_mlock])).
  { rewrite webserve_classified, Hcl.
    rewrite start_branch_running by assumption.
    destruct (reached acts); simpl in *. rewrite Hl. reflexivity. }
  rewrite E.
  assert (G : http_get (with_served_html html (reached acts)) "/"
              = Some (c_str html)).
  { unfold http_get. simpl. rewrite Ha. reflexivity. }
  unfold final. simpl fst. simpl snd.
  split; [reflexivity|]. split; [reflexivity|]. split; [exact G|].
  split; [intros Hn; rewrite G, (c_str_nul_free html Hn); reflexivity|].
  repeat split.
Qed.

Lemma start_while_running_swaps_document_witness :
  let w := reached [Call [ov_str "A"; ov_scalar 9000]] in
  __webserve__ [ov_str "B"; ov_scalar 9001; ov_str "127.0.0.1"] w
  = (Val [], with_served_html "B" w, [ev_mlock]).
Proof.
  intros w.
  apply (start_while_running_swaps_document
           [Call [ov_str "A"; ov_scalar 9000]]
           [ov_str "B"; ov_scalar 9001; ov_str "127.0.0.1"]
           "B" 9001 "127.0.0.1").
  - discriminate.
  - reflexivity.
Defined.

(** ** C5: the flag tells whether the root route is bound *)

(** C5.  After any series of calls (and of listener-thread activity) the
    route-registered flag is true exactly when the current server object
    has the root route bound, the root route is bound at most once, and a
    call registers the route only when it finds the flag false, in which
    case it registers it once and leaves the flag true. *)
Theorem route_flag_iff_root_bound (acts : list action) :
  let w := reached acts in
  (is_routed w = true <-> root_bound (app w) = true)
  /\ (root_bindings (app w) <= 1)%nat
  /\ forall args,
       In (ev_route "/") (trace (__webserve__ args w)) ->
       is_routed w = false
       /\ is_routed (final (__webserve__ args w)) = true
       /\ count is_route (trace (__webserve__ args w)) = 1%nat.
Proof.
  intros w. subst w.
  destruct (reached_consistent acts) as [Hr _].
  split; [|split].
  - unfold root_bound. rewrite Hr.
    destruct (is_routed (reached acts)); simpl; split; auto.
  - unfold root_bindings. rewrite Hr.
    destruct (is_routed (reached acts)); simpl; auto.
  - intros args. apply route_event_only_when_unrouted.
Qed.

(** ** C3: what Stop does about the listener thread *)

Lemma classify_stop (args : octave_value_list) :
  classify args = req_stop <-> stop_requested args = true.
Proof.
  unfold classify. destruct (stop_requested args); split; auto;
    try discriminate.
  repeat match goal with
         | |- context [match ?x with _ => _ end] => destruct x
         end; discriminate.
Qed.

(** In every state the process can be in, the handle is null or points to
    a thread object that was detached: the [join] of [stop_crow] never
    returns normally, and no thread of execution is waited for. *)
Lemma stop_never_waits (acts : list action) (args : octave_value_list) :
  stop_requested args = true ->
  count is_join_returned (trace (__webserve__ args (reached acts))) = 0%nat
  /\ execs (final (__webserve__ args (reached acts))) = execs (reached acts).
Proof.
  intros Hs. rewrite webserve_classified.
  apply classify_stop in Hs. rewrite Hs.
  destruct (consistent_cases _ (reached_consistent acts))
    as [(Hc & _) | (Hc & _)].
  - rewrite stop_branch_null by assumption. split; reflexivity.
  - rewrite stop_branch_detached by assumption. split; reflexivity.
Qed.

(** C3.  After [__webserve__ ("A")] from process start, the stop call
    returns normally, but its [join] threw [std::system_error] (the thread
    object was detached at line 150) and the listener's thread of
    execution has not been waited for: it is still not marked as exited
    when Stop returns. *)
Theorem stop_returns_without_waiting :
  let w := reached [Call [ov_str "A"]] in
  let r := __webserve__ [ov_scalar 0] w in
  crow_server w = Some (mkThread None)
  /\ execs w = [mkExecution "0.0.0.0" 8080 false]
  /\ outcome r = Val []
  /\ trace r = [ev_app_stop; ev_join_threw; ev_app_destroyed;
                ev_app_constructed; ev_munlock]
  /\ execs (final r) = [mkExecution "0.0.0.0" 8080 false].
Proof. repeat split; reflexivity. Qed.

(** ** C4: Stop while idle, Stop twice *)

(** C4.  A stop call made while no listener is running returns normally
    and leaves the controller [Idle]; it still stops, destroys and
    reconstructs the server object and calls the unlock hook; and a second
    stop call right after it does exactly the same. *)
Theorem stop_when_idle_is_safe
        (w : world) (args1 args2 : octave_value_list) :
  crow_server w = None ->
  stop_requested args1 = true ->
  stop_requested args2 = true ->
  let r1 := __webserve__ args1 w in
  let r2 := __webserve__ args2 (final r1) in
  outcome r1 = Val [] /\ Idle (final r1)
  /\ trace r1 = [ev_app_stop; ev_app_destroyed; ev_app_constructed; ev_munlock]
  /\ outcome r2 = Val [] /\ Idle (final r2)
  /\ trace r2 = [ev_app_stop; ev_app_destroyed; ev_app_constructed; ev_munlock]
  /\ final r2 = final r1.
Proof.
  intros Hc H1 H2 r1 r2. subst r1 r2.
  apply classify_stop in H1, H2.
  rewrite (webserve_classified args1), H1.
  rewrite (stop_branch_null w Hc). unfold final, outcome, trace. simpl.
  rewrite (webserve_classified args2), H2.
  rewrite stop_branch_null by reflexivity.
  unfold Idle, stopped. simpl. repeat split; reflexivity.
Qed.

Lemma stop_when_idle_is_safe_witness :
  let r1 := __webserve__ [ov_scalar 0] process_start in
  let r2 := __webserve__ [ov_int32 0; ov_str "ignored"] (final r1) in
  outcome r1 = Val [] /\ Idle (final r1)
  /\ trace r1 = [ev_app_stop; ev_app_destroyed; ev_app_constructed; ev_munlock]
  /\ outcome r2 = Val [] /\ Idle (final r2)
  /\ trace r2 = [ev_app_stop; ev_app_destroyed; ev_app_constructed; ev_munlock]
  /\ final r2 = final r1.
Proof.
  apply (stop_when_idle_is_safe process_start
           [ov_scalar 0] [ov_int32 0; ov_str "ignored"]); reflexivity.
Defined.

(** ** C8: the defaults *)

(** C8.  From [Idle], a call without arguments returns normally, stores
    the default document, registers the root route, and starts (and
    detaches) one thread running [run_crow ("0.0.0.0", 8080)]; the root
    then answers with the default document, and once that thread runs the
    server object is bound to address 0.0.0.0 and port 8080. *)
Theorem no_arguments_serves_defaults (w : world) :
  Idle w ->
  let r := __webserve__ [] w in
  let w' := final r in
  outcome r = Val []
  /\ trace r = [ev_route "/"; ev_thread_started "0.0.0.0" 8080;
                ev_detached; ev_mlock]
  /\ served_html w' = "This is an Octave WebServer instance!"
  /\ http_get w' "/" = Some "This is an Octave WebServer instance!"
  /\ is_routed w' = true
  /\ crow_server w' = Some (mkThread None)
  /\ execs w' = execs w ++ [mkExecution "0.0.0.0" 8080 false]
  /\ app (fst (step (ListenerRuns (length (execs w))) w'))
     = {| routes := [("/", return_served_html)];
          bindaddr_ := "0.0.0.0"; port_ := 8080;
          loglevel_ := Warning; listening := true |}.
Proof.
  intros (Hc & Hr & Ha) r w'. subst r w'.
  assert (E : __webserve__ [] w
              = start_branch "This is an Octave WebServer instance!"
                             8080 "0.0.0.0" w)
    by (rewrite webserve_classified; reflexivity).
  rewrite E, start_branch_idle by assumption.
  unfold final, outcome, trace, started, http_get. simpl.
  rewrite Ha. simpl. repeat split.
  rewrite nth_error_app2 by apply Nat.le_refl.
  rewrite Nat.sub_diag. reflexivity.
Qed.

Lemma no_arguments_serves_defaults_witness :
  let r := __webserve__ [] process_start in
  outcome r = Val []
  /\ http_get (final r) "/" = Some "This is an Octave WebServer instance!"
  /\ execs (final r) = [mkExecution "0.0.0.0" 8080 false].
Proof.
  assert (I : Idle process_start) by (repeat split; reflexivity).
  destruct (no_arguments_serves_defaults process_start I)
    as (H1 & _ & _ & H4 & _ & _ & H7 & _).
  repeat split; assumption.
Defined.

(** ** C6, C7, C10: the argument checks *)

(** A double converts to the C integer 0 exactly when it lies strictly
    between -1 and 1. *)
Lemma int_of_double_zero_iff (d : Q) :
  int_of_double d = 0 <-> (-1 < d /\ d < 1)%Q.
Proof.
  destruct d as [n p]. unfold int_of_double, Qlt_bool, math_fix.
  destruct (Qle_bool (inject_Z INT_MIN) (n # p)) eqn:E1; simpl negb; cbv iota.
  - destruct (Qle_bool (inject_Z (INT_MAX + 1)) (n # p)) eqn:E2.
    + apply Qle_bool_iff in E1, E2. unfold Qle, Qlt in *. simpl in *.
      unfold INT_MAX. split; [discriminate|]. lia.
    + apply Qle_bool_iff in E1.
      assert (E3 : ~ (inject_Z (INT_MAX + 1) <= n # p)%Q)
        by (rewrite <- Qle_bool_iff, E2; discriminate).
      unfold Qle, Qlt in *. simpl in *.
      rewrite Z.quot_small_iff by discriminate. lia.
  - assert (E3 : ~ (inject_Z INT_MIN <= n # p)%Q)
      by (rewrite <- Qle_bool_iff, E1; discriminate).
    unfold Qle, Qlt in *. simpl in *. unfold INT_MIN.
    split; [discriminate|]. lia.
Qed.

Lemma invalid_call_changes_nothing
      (args : octave_value_list) (msg : string) (w : world) :
  classify args = req_invalid msg ->
  __webserve__ args w = (Throw (execution_exception msg), w, []).
Proof. intros H. rewrite webserve_classified, H. reflexivity. Qed.

(** C6, as stated, fails: with the listener running, the call
    [__webserve__ (0, 8080, 5)] has a third argument that is not a string,
    yet it raises nothing; it is the stop sentinel, and tears the listener
    down. *)
Lemma stop_sentinel_skips_address_check :
  let w := reached [Call [ov_str "A"]] in
  let args := [ov_scalar 0; ov_scalar 8080; ov_scalar 5] in
  (2 < length args)%nat /\ isstring (arg args 2) = false
  /\ outcome (__webserve__ args w) = Val []
  /\ crow_server w = Some (mkThread None)
  /\ crow_server (final (__webserve__ args w)) = None
  /\ final (__webserve__ args w) <> w.
Proof.
  repeat split; try reflexivity.
  - simpl. lia.
  - intros H. apply (f_equal crow_server) in H. discriminate H.
Qed.

(** C6, amended.  A call that is not the stop sentinel and whose first
    argument is not a string, or whose third argument is not a string,
    fails with a validation error before anything has happened: the world
    (document, flag, handle, server object, threads, lock) is returned as
    it was and no outside call has been made. *)
Theorem non_string_document_or_address_is_rejected
        (w : world) (args : octave_value_list) :
  stop_requested args = false ->
  ((0 < length args)%nat /\ is_string (arg args 0) = false)
  \/ ((2 < length args)%nat /\ isstring (arg args 2) = false) ->
  exists msg,
    __webserve__ args w = (Throw (execution_exception msg), w, [])
    /\ (is_string (arg args 0) = false ->
        msg = "htmlserve: HTML must be a string.").
Proof.
  intros Hs H.
  assert (Hc : exists msg, classify args = req_invalid msg
                 /\ (is_string (arg args 0) = false ->
                     msg = "htmlserve: HTML must be a string.")).
  { unfold classify. rewrite Hs.
    destruct H as [[Hl Hn] | [Hl Hn]].
    - apply Nat.ltb_lt in Hl. rewrite Hl.
      destruct (arg args 0); try discriminate Hn; simpl;
        eexists; (split; [reflexivity | intros _; reflexivity]).
    - assert (Hl0 : (0 <? length args)%nat = true)
        by (apply Nat.ltb_lt; lia).
      assert (Hl1 : (1 <? length args)%nat = true)
        by (apply Nat.ltb_lt; lia).
      apply Nat.ltb_lt in Hl. rewrite Hl0, Hl1, Hl.
      destruct (arg args 0); simpl;
        try (eexists; split; [reflexivity | intros _; reflexivity]).
      destruct (isnumeric (arg args 1) && is_scalar_type (arg args 1));
        [destruct (int_value (arg args 1))|];
        try (eexists; split; [reflexivity | discriminate]).
      destruct (arg args 2); try discriminate Hn; simpl;
        eexists; (split; [reflexivity | discriminate]). }
  destruct Hc as (msg & Hc & Hm).
  exists msg. split; [|exact Hm].
  apply invalid_call_changes_nothing, Hc.
Qed.

Lemma non_string_document_or_address_is_rejected_witness :
  let w := reached [Call [ov_str "A"]] in
  exists msg,
    __webserve__ [ov_str "B"; ov_scalar 8080; ov_scalar 5] w
    = (Throw (execution_exception msg), w, [])
    /\ (is_string (ov_str "B") = false ->
        msg = "htmlserve: HTML must be a string.").
Proof.
  intros w.
  apply (non_string_document_or_address_is_rejected
           w [ov_str "B"; ov_scalar 8080; ov_scalar 5]).
  - reflexivity.
  - right. split; [simpl; lia | reflexivity].
Defined.

(** C7.  [__webserve__ ("x", 8080.25)] at process start: the port is a
    numeric scalar that is not an integer, and the call does not fail.
    The value is truncated to 8080 and a listener is started on it. *)
Theorem fractional_port_is_accepted :
  let args := [ov_str "x"; ov_scalar (32321 # 4)] in
  (forall n : Z, ~ (32321 # 4 == inject_Z n)%Q)
  /\ int_value (arg args 1) = Some 8080
  /\ __webserve__ args process_start
     = (Val [], started "x" 8080 "0.0.0.0" process_start,
        [ev_route "/"; ev_thread_started "0.0.0.0" 8080; ev_detached;
         ev_mlock]).
Proof.
  repeat split; try reflexivity.
  intros n. unfold Qeq. simpl. lia.
Qed.

(** C10, as stated, fails: 0.25 is a numeric scalar different from 0, and
    [__webserve__ (0.25)] is taken for the stop sentinel; with the
    listener running it tears it down and raises nothing. *)
Lemma quarter_is_taken_for_stop_sentinel :
  let w := reached [Call [ov_str "A"]] in
  let r := __webserve__ [ov_scalar (1 # 4)] w in
  ~ (1 # 4 == 0)%Q
  /\ isnumeric (ov_scalar (1 # 4)) = true
  /\ is_scalar_type (ov_scalar (1 # 4)) = true
  /\ outcome r = Val []
  /\ trace r = [ev_app_stop; ev_join_threw; ev_app_destroyed;
                ev_app_constructed; ev_munlock]
  /\ crow_server w = Some (mkThread None)
  /\ crow_server (final r) = None.
Proof. repeat split; try reflexivity. intros H. discriminate H. Qed.

(** C10, amended.  For a numeric scalar first argument, what decides is
    its conversion by [int_value ()]: when that is not 0 the stop sentinel
    is not triggered, the call fails with the HTML error and the world is
    returned as it was; when it is 0 the call takes the stop branch.  For
    a double the conversion is 0 exactly for the values strictly between
    -1 and 1. *)
Theorem numeric_scalar_first_argument
        (w : world) (v : octave_value) (rest : octave_value_list) (n : Z) :
  isnumeric v = true ->
  is_scalar_type v = true ->
  int_value v = Some n ->
  (n <> 0 ->
   __webserve__ (v :: rest) w
   = (Throw (execution_exception "htmlserve: HTML must be a string."), w, []))
  /\ (n = 0 -> __webserve__ (v :: rest) w = stop_branch w)
  /\ (forall d, v = ov_scalar d -> (n = 0 <-> (-1 < d /\ d < 1)%Q)).
Proof.
  intros Hn Hsc Hi. split; [|split].
  - intros Hz. apply invalid_call_changes_nothing.
    apply Z.eqb_neq in Hz.
    destruct v; try discriminate Hn; try discriminate Hsc;
      unfold classify, stop_requested; simpl; unfold int_value in Hi;
      simpl in Hi; inversion Hi; subst n; rewrite Hz; reflexivity.
  - intros Hz. rewrite webserve_classified.
    assert (Hs : stop_requested (v :: rest) = true).
    { subst n.
      destruct v; try discriminate Hn; try discriminate Hsc;
        unfold stop_requested; simpl; unfold int_value in Hi;
        simpl in Hi; inversion Hi as [H0]; rewrite H0; reflexivity. }
    apply classify_stop in Hs. rewrite Hs. reflexivity.
  - intros d Hv. subst v. simpl in Hi. inversion Hi; subst n.
    apply int_of_double_zero_iff.
Qed.

Lemma numeric_scalar_first_argument_witness :
  let w := reached [Call [ov_str "A"]] in
  __webserve__ [ov_scalar (-7 # 2)] w
  = (Throw (execution_exception "htmlserve: HTML must be a string."), w, []).
Proof.
  intros w.
  apply (numeric_scalar_first_argument w (ov_scalar (-7 # 2)) [] (-3)).
  - reflexivity.
  - reflexivity.
  - reflexivity.
  - discriminate.
Defined.

(** ** C9: the lock and unlock hooks *)

Lemma count_app (p : event -> bool) (a b : list event) :
  count p (a ++ b) = (count p a + count p b)%nat.
Proof. unfold count. rewrite filter_app, length_app. reflexivity. Qed.

(** A call locks exactly when it is a start that passes the checks, and
    unlocks exactly when it is the stop sentinel, whatever the state. *)
Lemma call_hooks (args : octave_value_list) (w : world) :
  count is_mlock (trace (__webserve__ args w))
  = (if is_start_call (Call args) then 1 else 0)%nat
  /\ count is_munlock (trace (__webserve__ args w))
     = (if is_stop_call (Call args) then 1 else 0)%nat.
Proof.
  rewrite webserve_classified. simpl.
  destruct (classify args) as [|html port addr|msg] eqn:E.
  - apply classify_stop in E. rewrite E.
    destruct (stop_branch_resets w) as (_ & _ & _ & _ & H1 & H2 & _). auto.
  - destruct (stop_requested args) eqn:Es;
      [apply classify_stop in Es; congruence|].
    destruct (start_branch_hooks html port addr w) as (_ & H1 & H2 & _). auto.
  - destruct (stop_requested args) eqn:Es;
      [apply classify_stop in Es; congruence|].
    split; reflexivity.
Qed.

Lemma step_hooks (a : action) (w : world) :
  count is_mlock (snd (step a w)) = (if is_start_call a then 1 else 0)%nat
  /\ count is_munlock (snd (step a w)) = (if is_stop_call a then 1 else 0)%nat.
Proof.
  destruct a as [args|i|i|args].
  - apply call_hooks.
  - simpl. destruct (nth_error (execs w) i) as [e|];
      [destruct (ex_exited e)|]; split; reflexivity.
  - split; reflexivity.
  - destruct (refused_call_cases args w)
      as [E | (html & port & addr & _ & _ & E)]; rewrite E;
      [split; reflexivity|].
    unfold route_events. destruct (is_routed w); split; reflexivity.
Qed.

Lemma run_hooks (acts : list action) :
  forall w,
    count is_mlock (snd (run acts w)) = length (filter is_start_call acts)
    /\ count is_munlock (snd (run acts w)) = length (filter is_stop_call acts).
Proof.
  induction acts as [|a acts IH]; intros w; simpl.
  - split; reflexivity.
  - destruct (step_hooks a w) as [H1 H2].
    destruct (step a w) as [w1 t1]. simpl in H1, H2.
    destruct (IH w1) as [H3 H4].
    destruct (run acts w1) as [w2 t2]. simpl in H3, H4. simpl.
    rewrite !count_app, H1, H2, H3, H4.
    destruct (is_start_call a), (is_stop_call a); simpl; split; reflexivity.
Qed.

Lemma run_app (a b : list action) (w : world) :
  run (a ++ b) w =
  (fst (run b (fst (run a w))), snd (run a w) ++ snd (run b (fst (run a w)))).
Proof.
  revert w. induction a as [|x a IH]; intros w; simpl.
  - destruct (run b w); reflexivity.
  - destruct (step x w) as [w1 t1]. rewrite IH.
    destruct (run a w1) as [w2 t2]. simpl.
    rewrite app_assoc. reflexivity.
Qed.

Lemma no_stop_calls (mids : list action) :
  forallb (fun a => negb (is_stop_call a)) mids = true ->
  filter is_stop_call mids = [].
Proof.
  induction mids as [|a mids IH]; simpl; intros H; [reflexivity|].
  apply andb_prop in H. destruct H as [Ha Hm].
  destruct (is_stop_call a); [discriminate Ha | auto].
Qed.

(** C9, as stated, fails: in the cycle start "A", start "B", stop, which
    goes from [Idle] to [Idle] with one document swap in between, the lock
    hook is called twice. *)
Lemma lock_hook_called_on_every_start :
  let cycle := [Call [ov_str "A"]; Call [ov_str "B"]; Call [ov_scalar 0]] in
  Idle process_start
  /\ Idle (fst (run cycle process_start))
  /\ snd (run cycle process_start)
     = [ev_route "/"; ev_thread_started "0.0.0.0" 8080; ev_detached; ev_mlock;
        ev_mlock;
        ev_app_stop; ev_join_threw; ev_app_destroyed; ev_app_constructed;
        ev_munlock]
  /\ count is_mlock (snd (run cycle process_start)) = 2%nat
  /\ count is_mlock (snd (run cycle process_start)) <> 1%nat.
Proof. unfold Idle. repeat split; try reflexivity. discriminate. Qed.

(** C9, amended.  In a cycle made of a start that passes the checks, any
    activity that contains no stop call, and a stop call, the lock hook is
    called once by the first start and once more by every later start that
    passes the checks, and by nothing else; the unlock hook is called
    exactly once, by the stop; the cycle ends [Idle] with the function
    unlocked. *)
Theorem hooks_in_a_cycle
        (w : world) (first last : octave_value_list) (mids : list action)
        (html : string) (port : Z) (addr : string) :
  classify first = req_start html port addr ->
  forallb (fun a => negb (is_stop_call a)) mids = true ->
  stop_requested last = true ->
  let cycle := Call first :: mids ++ [Call last] in
  count is_mlock (snd (run cycle w)) = S (length (filter is_start_call mids))
  /\ count is_munlock (snd (run cycle w)) = 1%nat
  /\ Idle (fst (run cycle w))
  /\ fcn_locked (fst (run cycle w)) = false.
Proof.
  intros Hf Hm Hl cycle. subst cycle.
  destruct (run_hooks (Call first :: mids ++ [Call last]) w) as [H1 H2].
  rewrite H1, H2. simpl filter. rewrite Hf.
  assert (Hfs : stop_requested first = false).
  { destruct (stop_requested first) eqn:E; [|reflexivity].
    apply classify_stop in E. congruence. }
  rewrite Hfs, !filter_app, (no_stop_calls mids Hm). simpl.
  rewrite Hl. apply classify_stop in Hl. rewrite Hl. simpl.
  rewrite length_app. simpl.
  split; [lia|]. split; [reflexivity|].
  change (Call first :: mids ++ [Call last])
    with ((Call first :: mids) ++ [Call last]).
  rewrite run_app. simpl.
  rewrite webserve_classified, Hl.
  match goal with
  | |- Idle (final (stop_branch ?x)) /\ _ =>
      destruct (stop_branch_resets x) as (_ & HI & HL & _)
  end.
  split; assumption.
Qed.

Lemma hooks_in_a_cycle_witness :
  let cycle := Call [ov_str "A"]
               :: [Call [ov_str "B"]; Call [ov_cell 2]; ListenerRuns 0;
                   Call [ov_str "C"; ov_scalar 1]]
               ++ [Call [ov_scalar 0]] in
  count is_mlock (snd (run cycle process_start)) = 3%nat
  /\ count is_munlock (snd (run cycle process_start)) = 1%nat
  /\ Idle (fst (run cycle process_start))
  /\ fcn_locked (fst (run cycle process_start)) = false.
Proof.
  apply (hooks_in_a_cycle process_start [ov_str "A"] [ov_scalar 0]
           [Call [ov_str "B"]; Call [ov_cell 2]; ListenerRuns 0;
            Call [ov_str "C"; ov_scalar 1]]
           "A" 8080 "0.0.0.0"); reflexivity.
Defined.

(** * Further properties of the three functions *)

(** ** The shape of the globals *)

Lemma settled_process_start : settled process_start.
Proof. left. repeat split; reflexivity. Qed.

Lemma settled_call (args : octave_value_list) (w : world) :
  settled w -> settled (final (__webserve__ args w)).
Proof.
  intros Hw. rewrite webserve_classified.
  destruct (classify args) as [|html port addr|msg].
  - destruct (stop_branch_resets w) as (_ & (Hc & Hr & Ha) & Hl & _).
    left. rewrite Hr, Ha. auto.
  - destruct Hw as [(Hc & Hl & Ha) | (Hc & Hr & Hl & Ha)].
    + rewrite start_branch_null by assumption.
      right. repeat split. apply (half_started_routes html w Ha).
    + rewrite start_branch_running by congruence.
      right. simpl. auto.
  - exact Hw.
Qed.

Lemma settled_step (a : action) (w : world) :
  settled w -> settled (fst (step a w)).
Proof.
  intros Hw. destruct a as [args|i|i|args].
  - apply settled_call, Hw.
  - simpl. destruct (nth_error (execs w) i) as [e|]; [|exact Hw].
    destruct (ex_exited e); exact Hw.
  - exact Hw.
  - destruct (refused_call_cases args w)
      as [E | (html & port & addr & _ & Hc & E)]; rewrite E; [exact Hw|].
    destruct Hw as [(_ & Hl & Ha) | (Hs & _)]; [|congruence].
    left. repeat split; [exact Hl|].
    apply (half_started_routes html w Ha).
Qed.

Lemma settled_run (acts : list action) :
  forall w, settled w -> settled (fst (run acts w)).
Proof.
  induction acts as [|a acts IH]; intros w Hw; simpl.
  - exact Hw.
  - pose proof (settled_step a w Hw) as H1.
    destruct (step a w) as [w1 t1]. simpl in H1.
    specialize (IH w1 H1).
    destruct (run acts w1) as [w2 t2]. exact IH.
Qed.

Lemma reached_settled (acts : list action) : settled (reached acts).
Proof. apply settled_run, settled_process_start. Qed.

(** X1.  After any series of calls, refused calls and listener-thread
    steps: the function is locked exactly when the handle is non-null; a
    non-null handle points to a detached thread object and comes with the
    flag true; and the server object holds the root route once when the
    flag is true and no route when it is false.  (The flag can be true
    with a null handle: that is the state a refused start leaves.) *)
Theorem locked_iff_listener_held (acts : list action) :
  let w := reached acts in
  (fcn_locked w = true <-> crow_server w <> None)
  /\ (crow_server w <> None -> is_routed w = true)
  /\ (crow_server w <> None -> crow_server w = Some (mkThread None))
  /\ routes (app w)
     = (if is_routed w then [("/", return_served_html)] else []).
Proof.
  intros w. subst w.
  destruct (reached_settled acts) as [(Hc & Hl & Ha) | (Hc & Hr & Hl & Ha)].
  - rewrite Hc, Hl. repeat split; try congruence; try discriminate;
      try exact Ha.
  - rewrite Hc, Hl, Hr. repeat split; try congruence; try discriminate;
      try (rewrite Hr in Ha; exact Ha); try exact Ha.
Qed.

(** ** The arguments that are read, and the ones that are not *)

Lemma classify_first_three (a b c : octave_value) (rest : octave_value_list) :
  classify (a :: b :: c :: rest) = classify [a; b; c].
Proof. reflexivity. Qed.

Lemma stop_requested_first (a : octave_value) (rest : octave_value_list) :
  stop_requested (a :: rest) = stop_requested [a].
Proof. reflexivity. Qed.

(** X2.  Only the first three arguments are ever looked at: a call with
    more behaves as the call with the first three, in every state.  And
    once the first argument is the stop sentinel nothing after it is
    looked at either. *)
Theorem surplus_arguments_are_ignored
        (a b c : octave_value) (rest : octave_value_list) (w : world) :
  __webserve__ (a :: b :: c :: rest) w = __webserve__ [a; b; c] w
  /\ (stop_requested [a] = true ->
      __webserve__ (a :: b :: c :: rest) w = __webserve__ [a] w).
Proof.
  split.
  - rewrite !webserve_classified, classify_first_three. reflexivity.
  - intros Hs. rewrite !webserve_classified.
    assert (H1 : classify (a :: b :: c :: rest) = req_stop)
      by (apply classify_stop; rewrite stop_requested_first; exact Hs).
    assert (H2 : classify [a] = req_stop) by (apply classify_stop; exact Hs).
    rewrite H1, H2. reflexivity.
Qed.

Lemma surplus_arguments_are_ignored_witness :
  __webserve__ [ov_int32 0; ov_cell 3; ov_bool true; ov_str "x"] process_start
  = __webserve__ [ov_int32 0] process_start.
Proof.
  apply (surplus_arguments_are_ignored
           (ov_int32 0) (ov_cell 3) (ov_bool true) [ov_str "x"] process_start).
  reflexivity.
Defined.

(** X3.  An argument that is left out counts as its default written out:
    no argument at all is the default document, a missing port is 8080, a
    missing address is "0.0.0.0".  The calls agree in every state, on the
    result, the state left behind and the outside calls made. *)
Theorem omitted_arguments_are_defaults
        (html : string) (p : octave_value) (w : world) :
  __webserve__ [] w
  = __webserve__ [ov_str "This is an Octave WebServer instance!"] w
  /\ __webserve__ [ov_str html] w = __webserve__ [ov_str html; ov_scalar 8080] w
  /\ __webserve__ [ov_str html; p] w
     = __webserve__ [ov_str html; p; ov_str "0.0.0.0"] w.
Proof.
  rewrite !webserve_classified. split; [|split]; reflexivity.
Qed.

(** X4.  When the first argument is a string and the second is not a
    numeric scalar, the call fails with the PORT message whatever the
    third argument is, and nothing has happened: the world is returned as
    it was and no outside call was made. *)
Theorem bad_port_is_rejected
        (w : world) (h : string) (p : octave_value) (rest : octave_value_list) :
  isnumeric p && is_scalar_type p = false ->
  __webserve__ (ov_str h :: p :: rest) w
  = (Throw (execution_exception
              "htmlserve: PORT must be a scalar integer value."), w, []).
Proof.
  intros Hp. apply invalid_call_changes_nothing.
  unfold classify, stop_requested. simpl.
  change (arg (ov_str h :: p :: rest) 1) with p. rewrite Hp. reflexivity.
Qed.

Lemma bad_port_is_rejected_witness :
  let w := reached [Call [ov_str "A"]] in
  __webserve__ [ov_str "B"; ov_str "8080"; ov_cell 1] w
  = (Throw (execution_exception
              "htmlserve: PORT must be a scalar integer value."), w, []).
Proof.
  intros w.
  apply (bad_port_is_rejected w "B" (ov_str "8080") [ov_cell 1]).
  reflexivity.
Defined.

(** X5.  When the first argument is a string, the second a numeric scalar
    and the third not a string, the call fails with the ADDR message, and
    nothing has happened. *)
Theorem bad_address_is_rejected
        (w : world) (h : string) (p a : octave_value)
        (rest : octave_value_list) :
  isnumeric p && is_scalar_type p = true ->
  isstring a = false ->
  __webserve__ (ov_str h :: p :: a :: rest) w
  = (Throw (execution_exception
              "htmlserve: ADDR must be a character vector."), w, []).
Proof.
  intros Hp Ha. apply invalid_call_changes_nothing.
  unfold classify, stop_requested. simpl.
  change (arg (ov_str h :: p :: a :: rest) 1) with p.
  change (arg (ov_str h :: p :: a :: rest) 2) with a.
  rewrite Hp.
  destruct p; try discriminate Hp; destruct a; try discriminate Ha;
    reflexivity.
Qed.

Lemma bad_address_is_rejected_witness :
  let w := reached [Call [ov_str "A"]] in
  __webserve__ [ov_str "B"; ov_scalar 9000; ov_scalar 127] w
  = (Throw (execution_exception
              "htmlserve: ADDR must be a character vector."), w, []).
Proof.
  intros w.
  apply (bad_address_is_rejected w "B" (ov_scalar 9000) (ov_scalar 127) []);
    reflexivity.
Defined.

Lemma classify_invalid_message (args : octave_value_list) (msg : string) :
  classify args = req_invalid msg -> In msg validation_messages.
Proof.
  unfold classify, validation_messages.
  repeat match goal with
         | |- context [match ?x with _ => _ end] => destruct x
         end;
    intros H; inversion H; simpl; auto.
Qed.

(** X6.  What a call can raise, in every state.  A call whose thread, if
    it asks for one, is started either returns the empty value list or
    raises one of the three validation messages, and then the world is
    returned as it was and no outside call has been made.  A call that is
    refused its thread is a start that passed the checks and found the
    handle null: [std::system_error] escapes, after the route, the flag
    and the document have been set; the handle is still null, the lock is
    untouched and no thread exists.  No other call asks for a thread. *)
Theorem what_a_call_can_raise (args : octave_value_list) (w : world) :
  (outcome (__webserve__ args w) = Val []
   \/ exists msg,
        In msg validation_messages
        /\ __webserve__ args w = (Throw (execution_exception msg), w, []))
  /\ match classify args, crow_server w with
     | req_start html _ _, None =>
         webserve_with new_thread_refused args w
         = (Throw system_error, half_started html w, route_events w)
     | _, _ =>
         webserve_with new_thread_refused args w = __webserve__ args w
     end.
Proof.
  rewrite webserve_classified, webserve_refused_classified. split.
  - destruct (classify args) as [|html port addr|msg] eqn:E.
    + left. apply stop_branch_resets.
    + left. apply start_branch_hooks.
    + right. exists msg. split; [|reflexivity].
      apply classify_invalid_message with args, E.
  - destruct (classify args) as [|html port addr|msg]; try reflexivity.
    destruct (crow_server w) as [t|] eqn:Hc.
    + apply start_branch_refused_running. congruence.
    + apply start_branch_refused_null, Hc.
Qed.

(** ** Starting, restarting and what is served *)

Lemma start_branch_spawns (html : string) (port : Z) (addr : string)
      (w : world) :
  crow_server w = None ->
  execs (final (start_branch html port addr w))
  = execs w ++ [mkExecution addr port false]
  /\ In (ev_thread_started addr port) (trace (start_branch html port addr w))
  /\ crow_server (final (start_branch html port addr w))
     = Some (mkThread None).
Proof.
  intros H. world_cases w; repeat split; simpl; auto.
Qed.

(** X7.  In any state the process can be in, a start that passes the
    checks, finds the handle null and gets its thread registers the root
    route if the flag is false (and only then), starts exactly one thread
    running [run_crow (addr, port)] with the address and port of the
    call, detaches it and locks the function.  The route table then holds
    the root route once, and the document is stored. *)
Theorem start_without_listener_starts_one
        (acts : list action) (args : octave_value_list)
        (html : string) (port : Z) (addr : string) :
  crow_server (reached acts) = None ->
  classify args = req_start html port addr ->
  let w := reached acts in
  let r := __webserve__ args w in
  outcome r = Val []
  /\ trace r = route_events w
               ++ [ev_thread_started addr port; ev_detached; ev_mlock]
  /\ execs (final r) = execs w ++ [mkExecution addr port false]
  /\ crow_server (final r) = Some (mkThread None)
  /\ is_routed (final r) = true
  /\ routes (app (final r)) = [("/", return_served_html)]
  /\ served_html (final r) = html
  /\ fcn_locked (final r) = true.
Proof.
  intros Hc Hcl w r. subst r w.
  destruct (reached_settled acts) as [(_ & Hl & Ha) | (Hs & _)];
    [|congruence].
  rewrite webserve_classified, Hcl, start_branch_null by assumption.
  unfold outcome, trace, final. simpl fst. simpl snd.
  repeat split. apply (half_started_routes html _ Ha).
Qed.

Lemma start_without_listener_starts_one_witness :
  let w := reached [CallRefused [ov_str "A"]] in
  let r := __webserve__ [ov_str "B"; ov_scalar 9001; ov_str "127.0.0.1"] w in
  is_routed w = true /\ crow_server w = None
  /\ trace r = [ev_thread_started "127.0.0.1" 9001; ev_detached; ev_mlock]
  /\ routes (app (final r)) = [("/", return_served_html)].
Proof.
  intros w r.
  destruct (start_without_listener_starts_one
              [CallRefused [ov_str "A"]]
              [ov_str "B"; ov_scalar 9001; ov_str "127.0.0.1"]
              "B" 9001 "127.0.0.1" eq_refl eq_refl)
    as (_ & H2 & _ & _ & _ & H6 & _).
  split; [reflexivity|]. split; [reflexivity|].
  split; [exact H2 | exact H6].
Defined.

Lemma int_of_double_inject_Z (n : Z) :
  INT_MIN <= n <= INT_MAX -> int_of_double (inject_Z n) = n.
Proof.
  unfold INT_MIN, INT_MAX. intros Hn.
  unfold int_of_double, Qlt_bool, math_fix.
  assert (E1 : Qle_bool (inject_Z INT_MIN) (inject_Z n) = true).
  { apply Qle_bool_iff. unfold Qle, INT_MIN. simpl. lia. }
  assert (E2 : Qle_bool (inject_Z (INT_MAX + 1)) (inject_Z n) = false).
  { destruct (Qle_bool (inject_Z (INT_MAX + 1)) (inject_Z n)) eqn:E;
      [|reflexivity].
    apply Qle_bool_iff in E. unfold Qle, INT_MAX in E. simpl in E. lia. }
  rewrite E1, E2. simpl. apply Z.quot_1_r.
Qed.

(** X8.  The port is not range-checked.  Any integer that fits a C int,
    given as a double or as an int32, is handed to the listener thread as
    it is, negative values and values above 65535 included. *)
Theorem integer_port_is_passed_through
        (w : world) (h : string) (n : Z) :
  INT_MIN <= n <= INT_MAX ->
  crow_server w = None ->
  execs (final (__webserve__ [ov_str h; ov_scalar (inject_Z n)] w))
  = execs w ++ [mkExecution "0.0.0.0" n false]
  /\ execs (final (__webserve__ [ov_str h; ov_int32 n] w))
     = execs w ++ [mkExecution "0.0.0.0" n false].
Proof.
  intros Hn Hc.
  assert (E1 : classify [ov_str h; ov_scalar (inject_Z n)]
               = req_start h n "0.0.0.0").
  { unfold classify, stop_requested, int_value. simpl.
    rewrite (int_of_double_inject_Z n Hn). reflexivity. }
  assert (E2 : classify [ov_str h; ov_int32 n] = req_start h n "0.0.0.0").
  { unfold classify, stop_requested, int_value. simpl.
    rewrite (int_of_double_inject_Z n Hn). reflexivity. }
  rewrite !webserve_classified, E1, E2.
  split; apply start_branch_spawns, Hc.
Qed.

Lemma integer_port_is_passed_through_witness :
  execs (final (__webserve__ [ov_str "A"; ov_scalar (inject_Z 70000)]
                             process_start))
  = [mkExecution "0.0.0.0" 70000 false]
  /\ execs (final (__webserve__ [ov_str "A"; ov_int32 70000] process_start))
     = [mkExecution "0.0.0.0" 70000 false].
Proof.
  apply (integer_port_is_passed_through process_start "A" 70000).
  - unfold INT_MIN, INT_MAX. lia.
  - reflexivity.
Defined.

Lemma with_served_html_same (w : world) :
  with_served_html (served_html w) w = w.
Proof. destruct w; reflexivity. Qed.

Lemma start_reaches_running (acts : list action) (args : octave_value_list)
      (html : string) (port : Z) (addr : string) :
  classify args = req_start html port addr ->
  let w1 := final (__webserve__ args (reached acts)) in
  crow_server w1 = Some (mkThread None) /\ is_routed w1 = true
  /\ fcn_locked w1 = true /\ served_html w1 = html
  /\ routes (app w1) = [("/", return_served_html)].
Proof.
  intros Hcl w1. subst w1. rewrite webserve_classified, Hcl.
  destruct (reached_settled acts) as [(Hc & Hl & Ha) | (Hc & Hr & Hl & Ha)].
  - rewrite start_branch_null by assumption.
    unfold final. simpl fst. simpl snd.
    repeat split. apply (half_started_routes html _ Ha).
  - rewrite start_branch_running by congruence.
    unfold final. simpl. repeat split; assumption.
Qed.

(** X9.  Start is idempotent: in any state the process can be in,
    repeating a start call that passed the checks leaves the state exactly
    as the first one left it; the only outside call of the repetition is
    the lock hook. *)
Theorem repeated_start_changes_nothing
        (acts : list action) (args : octave_value_list)
        (html : string) (port : Z) (addr : string) :
  classify args = req_start html port addr ->
  let w1 := final (__webserve__ args (reached acts)) in
  __webserve__ args w1 = (Val [], w1, [ev_mlock]).
Proof.
  intros Hcl w1.
  destruct (start_reaches_running acts args html port addr Hcl)
    as (Hc & Hr & Hl & Hd & _).
  fold w1 in Hc, Hr, Hl, Hd.
  rewrite webserve_classified, Hcl.
  rewrite start_branch_running by congruence.
  rewrite <- Hd, with_served_html_same.
  destruct w1; simpl in *. rewrite Hl. reflexivity.
Qed.

Lemma repeated_start_changes_nothing_witness :
  let args := [ov_str "A"; ov_scalar 9000] in
  let w1 := final (__webserve__ args (reached [])) in
  __webserve__ args w1 = (Val [], w1, [ev_mlock]).
Proof.
  apply (repeated_start_changes_nothing
           [] [ov_str "A"; ov_scalar 9000] "A" 9000 "0.0.0.0").
  reflexivity.
Defined.

(** X10.  In any state the process can be in, whether a listener is held
    or not, once a start call has returned the root handler answers a
    request that reaches it with the C string of the document of that
    call: the document itself when it holds no NUL byte (the empty
    document included), its part before the first NUL byte otherwise. *)
Theorem root_handler_returns_started_document
        (acts : list action) (args : octave_value_list)
        (html : string) (port : Z) (addr : string) :
  classify args = req_start html port addr ->
  http_get (final (__webserve__ args (reached acts))) "/" = Some (c_str html)
  /\ (nul_free html = true ->
      http_get (final (__webserve__ args (reached acts))) "/" = Some html).
Proof.
  intros Hcl.
  destruct (start_reaches_running acts args html port addr Hcl)
    as (_ & _ & _ & Hd & Ha).
  assert (G : http_get (final (__webserve__ args (reached acts))) "/"
              = Some (c_str html)).
  { unfold http_get. rewrite Ha. simpl. rewrite Hd. reflexivity. }
  split; [exact G|].
  intros Hn. rewrite G, (c_str_nul_free html Hn). reflexivity.
Qed.

Lemma root_handler_returns_started_document_witness :
  let doc := String (Ascii.ascii_of_nat 97) (String Ascii.zero "b") in
  http_get (final (__webserve__ [ov_str doc]
                     (reached [Call [ov_str "A"]; ListenerRuns 0])))
           "/" = Some "a"
  /\ http_get (final (__webserve__ [ov_str ""] (reached [CallRefused []])))
              "/" = Some "".
Proof.
  intros doc. split.
  - apply (root_handler_returns_started_document
             [Call [ov_str "A"]; ListenerRuns 0] [ov_str doc]
             doc 8080 "0.0.0.0").
    reflexivity.
  - apply (root_handler_returns_started_document
             [CallRefused []] [ov_str ""] "" 8080 "0.0.0.0");
      reflexivity.
Defined.

(** X11.  In any state the process can be in, the route table of the
    server object matches the root path and nothing else, and it matches
    it exactly while the route-registered flag is true; the handler then
    returns the C string of the current [served_html].  After a stop no
    path is matched, although the document is still stored. *)
Theorem only_the_root_is_routed (acts : list action) (path : string) :
  http_get (reached acts) path
  = if is_routed (reached acts) && String.eqb "/" path
    then Some (c_str (served_html (reached acts)))
    else None.
Proof.
  unfold http_get.
  destruct (reached_settled acts) as [(_ & _ & Ha) | (_ & Hr & _ & Ha)];
    rewrite Ha.
  - destruct (is_routed (reached acts)); [|reflexivity].
    cbn [find fst snd andb run_handler].
    destruct (String.eqb "/" path); reflexivity.
  - rewrite Hr. cbn [find fst snd andb run_handler].
    destruct (String.eqb "/" path); reflexivity.
Qed.

(** ** The listener threads *)

(** X12.  In any state the process can be in, a call never removes or
    alters a thread of execution already in the table, and adds at most
    one: exactly one, with the address and port of the call, for a start
    that passes the checks and finds the handle null; none otherwise.  In
    particular no stop call marks a listener as exited. *)
Theorem calls_only_add_listeners
        (acts : list action) (args : octave_value_list) :
  let w := reached acts in
  execs (final (__webserve__ args w)) = execs w ++ spawned args w.
Proof.
  intros w. subst w. unfold spawned. rewrite webserve_classified.
  destruct (classify args) as [|html port addr|msg].
  - rewrite app_nil_r.
    destruct (reached_settled acts) as [(Hc & _) | (Hc & _)].
    + rewrite stop_branch_null by assumption. reflexivity.
    + rewrite stop_branch_detached by assumption. reflexivity.
  - destruct (reached_settled acts) as [(Hc & _) | (Hc & Hr & _)].
    + rewrite Hc, start_branch_null by assumption. reflexivity.
    + rewrite Hc, start_branch_running by congruence.
      rewrite app_nil_r. reflexivity.
  - destruct (crow_server (reached acts)); rewrite app_nil_r; reflexivity.
Qed.

(** X13.  In any state the process can be in, the thread object behind a
    non-null handle is not joinable, so no call ever returns from a
    [join]: a stop with a non-null handle runs into [std::system_error]
    once and swallows it, a stop with a null handle does not try. *)
Theorem listener_is_never_joined
        (acts : list action) (args : octave_value_list) :
  let w := reached acts in
  match crow_server w with
  | Some t => joinable t = false
  | None => True
  end
  /\ count is_join_returned (trace (__webserve__ args w)) = 0%nat
  /\ (stop_requested args = true ->
      (In ev_join_threw (trace (__webserve__ args w))
       <-> crow_server w <> None)).
Proof.
  intros w. subst w. rewrite webserve_classified.
  destruct (reached_settled acts) as [(Hc & Hr & _) | (Hc & Hr & _)];
    rewrite Hc; (split; [simpl; auto|]).
  - destruct (classify args) as [|html port addr|msg] eqn:E.
    + rewrite stop_branch_null by assumption. split; [reflexivity|].
      intros _. simpl. split; [intuition discriminate | congruence].
    + rewrite start_branch_null by assumption.
      split; [unfold route_events; destruct (is_routed _); reflexivity|].
      intros Hs. apply classify_stop in Hs. congruence.
    + split; [reflexivity|].
      intros Hs. apply classify_stop in Hs. congruence.
  - destruct (classify args) as [|html port addr|msg] eqn:E.
    + rewrite stop_branch_detached by assumption. split; [reflexivity|].
      intros _. simpl. split; [discriminate | auto].
    + rewrite start_branch_running by congruence. split; [reflexivity|].
      intros Hs. apply classify_stop in Hs. congruence.
    + split; [reflexivity|].
      intros Hs. apply classify_stop in Hs. congruence.
Qed.

(** X14.  Stop and start compose to a restart, from any state: after the
    stop the route table matches no path, although the document is still
    stored; the start that follows (when it gets its thread) registers
    the root route on the new server object, which then holds it once,
    and starts one thread running [run_crow] with the address and port of
    that call; the root handler then returns the C string of the new
    document, which is the document itself when it holds no NUL byte. *)
Theorem restart_takes_new_settings
        (w : world) (stop_args args : octave_value_list)
        (html : string) (port : Z) (addr : string) :
  stop_requested stop_args = true ->
  classify args = req_start html port addr ->
  let w1 := final (__webserve__ stop_args w) in
  let r := __webserve__ args w1 in
  (forall path, http_get w1 path = None)
  /\ served_html w1 = served_html w
  /\ outcome r = Val []
  /\ trace r = [ev_route "/"; ev_thread_started addr port; ev_detached;
                ev_mlock]
  /\ execs (final r) = execs w1 ++ [mkExecution addr port false]
  /\ routes (app (final r)) = [("/", return_served_html)]
  /\ http_get (final r) "/" = Some (c_str html)
  /\ (nul_free html = true -> http_get (final r) "/" = Some html).
Proof.
  intros Hs Hcl w1 r. subst r w1.
  apply classify_stop in Hs.
  rewrite (webserve_classified stop_args), Hs.
  destruct (stop_branch_resets w) as (_ & (Hc & Hr & Ha) & _ & Hd & _).
  remember (final (stop_branch w)) as w1 eqn:E. clear E.
  rewrite webserve_classified, Hcl, start_branch_idle by assumption.
  unfold final, trace, outcome, started, http_get. simpl. rewrite Ha. simpl.
  repeat split; auto.
  intros Hn. rewrite (c_str_nul_free html Hn). reflexivity.
Qed.

Lemma restart_takes_new_settings_witness :
  let w := reached [Call [ov_str "A"; ov_scalar 9000]] in
  let w1 := final (__webserve__ [ov_scalar 0] w) in
  let r := __webserve__ [ov_str "B"; ov_scalar 9001; ov_str "127.0.0.1"] w1 in
  http_get w "/" = Some "A"
  /\ (forall path, http_get w1 path = None)
  /\ http_get (final r) "/" = Some "B"
  /\ execs (final r)
     = [mkExecution "0.0.0.0" 9000 false; mkExecution "127.0.0.1" 9001 false].
Proof.
  intros w w1 r.
  destruct (restart_takes_new_settings
              w [ov_scalar 0]
              [ov_str "B"; ov_scalar 9001; ov_str "127.0.0.1"]
              "B" 9001 "127.0.0.1" eq_refl eq_refl)
    as (H1 & _ & _ & _ & H5 & _ & H7 & _).
  split; [reflexivity|]. split; [exact H1|]. split; [exact H7|].
  exact H5.
Defined.

Lemma listener_is_never_joined_witness :
  let w := reached [Call [ov_str "A"]] in
  In ev_join_threw (trace (__webserve__ [ov_scalar 0] w))
  <-> crow_server w <> None.
Proof.
  intros w.
  destruct (listener_is_never_joined [Call [ov_str "A"]] [ov_scalar 0])
    as (_ & _ & H).
  apply H. reflexivity.
Defined.

(** X15.  [stop_crow] on its own, in any state at all: it never raises;
    it asks the server to stop first, deals with the thread next, and
    only then destroys and reconstructs the server object; it leaves the
    handle null, the flag false, the server object new, and does not
    touch the document or the lock.  Had the handle pointed to a joinable
    thread object, that thread would have been waited for and be marked
    as exited. *)
Theorem stop_crow_in_any_state (w : world) :
  stop_crow w
  = (Val tt,
     mkWorld SimpleApp false None (served_html w) (joined_execs w)
             (fcn_locked w),
     ev_app_stop :: join_events w ++ [ev_app_destroyed; ev_app_constructed]).
Proof.
  unfold joined_execs, join_events.
  destruct w as [a r [[[i|]]|] d ex l]; reflexivity.
Qed.

(** ** How many threads are started *)

Lemma call_slots (args : octave_value_list) (w : world) :
  settled w ->
  (count is_thread_started (trace (__webserve__ args w))
   + free_slots (final (__webserve__ args w))
   <= free_slots w + (if stop_requested args then 1 else 0))%nat.
Proof.
  intros Hw. rewrite webserve_classified. unfold free_slots.
  destruct (classify args) as [|html port addr|msg] eqn:E.
  - apply classify_stop in E. rewrite E.
    destruct Hw as [(Hc & _) | (Hc & _)]; rewrite Hc.
    + rewrite stop_branch_null by assumption. simpl. lia.
    + rewrite stop_branch_detached by assumption. simpl. lia.
  - destruct Hw as [(Hc & _) | (Hc & Hr & _)]; rewrite Hc.
    + rewrite start_branch_null by assumption.
      unfold route_events. destruct (is_routed w); simpl; lia.
    + rewrite start_branch_running by congruence. simpl. rewrite Hc. lia.
  - unfold final, trace. simpl.
    destruct (crow_server w), (stop_requested args); simpl; lia.
Qed.

Lemma step_slots (a : action) (w : world) :
  settled w ->
  (count is_thread_started (snd (step a w)) + free_slots (fst (step a w))
   <= free_slots w + (if is_stop_call a then 1 else 0))%nat.
Proof.
  intros Hw. destruct a as [args|i|i|args].
  - apply call_slots, Hw.
  - simpl. destruct (nth_error (execs w) i) as [e|];
      [destruct (ex_exited e)|]; simpl; unfold free_slots; simpl; lia.
  - simpl. unfold free_slots. simpl. lia.
  - destruct (refused_call_cases args w)
      as [E | (html & port & addr & _ & Hc & E)]; rewrite E.
    + simpl. lia.
    + unfold free_slots, route_events. simpl. rewrite Hc.
      destruct (is_routed w); simpl; lia.
Qed.

Lemma run_slots (acts : list action) :
  forall w,
    settled w ->
    (count is_thread_started (snd (run acts w)) + free_slots (fst (run acts w))
     <= free_slots w + length (filter is_stop_call acts))%nat.
Proof.
  induction acts as [|a acts IH]; intros w Hw; simpl.
  - lia.
  - pose proof (step_slots a w Hw) as H1.
    pose proof (settled_step a w Hw) as H2.
    destruct (step a w) as [w1 t1]. simpl in H1, H2.
    specialize (IH w1 H2).
    destruct (run acts w1) as [w2 t2]. simpl in IH. simpl.
    rewrite count_app.
    destruct (is_stop_call a); simpl in *; lia.
Qed.

(** X16.  Over any series of calls, refused calls and listener-thread
    steps from process start, the number of threads the program starts is
    at most one more than the number of stop calls: a thread is started
    only while the handle is null, and only a stop call nulls it again.
    This bounds how often a thread is started, not how many listener
    threads are alive: [stop_crow] never waits for one. *)
Theorem starts_bounded_by_stops (acts : list action) :
  (count is_thread_started (snd (run acts process_start))
   <= 1 + length (filter is_stop_call acts))%nat.
Proof.
  pose proof (run_slots acts process_start settled_process_start) as H.
  change (free_slots process_start) with 1%nat in H. lia.
Qed.
